(** * verification/verify_chat.py: a headless-browser smoke test

    The script drives Playwright's synchronous API: it launches Chromium,
    opens a page, navigates to the locally served application, sleeps, takes
    a screenshot and closes the browser, all inside a
    [with sync_playwright() as playwright:] block.

    The development has three layers:
    - [Api]: a model of the part of the Playwright API the script calls
      (a third-party library; its behaviour is taken from its documentation
      and from the Python binding), as operations of a state-and-exception
      monad over a [World] that holds the driver, the browser resources,
      the file system, a clock and the log of the calls issued;
    - [Script]: the script itself, statement by statement;
    - the theorems about the script. *)

From stdpp Require Import gmap strings list fin_maps.
From Stdlib Require Import ZArith NArith Ascii.

Local Open Scope string_scope.
Local Open Scope list_scope.

(** ** Values of the API *)

Definition handle := nat.

(** [playwright.chromium], [playwright.firefox], [playwright.webkit]. *)
Inductive BrowserType := Chromium | Firefox | Webkit.

(** The object bound by [with sync_playwright() as playwright]. *)
Record Playwright := { chromium : BrowserType; firefox : BrowserType; webkit : BrowserType }.

Definition playwright_object : Playwright :=
  {| chromium := Chromium; firefox := Firefox; webkit := Webkit |}.

(** Exceptions the calls can raise: [playwright.sync_api.Error], its
    subclasses [TimeoutError] and [TargetClosedError], Python's [OSError]
    (with its subclasses, [FileNotFoundError] among them) from the file
    system, and a plain [Exception]. *)
Inductive Exn :=
| PlaywrightError (msg : string)
| TimeoutError
| TargetClosedError
| OSError (msg : string)
| PyException (msg : string).

(** What a page shows. *)
Inductive Doc :=
| Blank
| Document (url : string) (status : Z).

Record Page := { pg_context : handle; pg_doc : Doc }.

(** A captured raster image: its pixel size and the document it shows. *)
Record Image := { img_width : Z; img_height : Z; img_doc : Doc }.

(** The call sites of the script.  Keyword arguments that a call may omit
    are options: [None] is "not passed". *)
Inductive Call :=
| CStart
| CLaunch (bt : BrowserType) (headless : option bool)
| CNewContext (browser : handle)
| CNewPage (context : handle)
| CGoto (page : handle) (url : string)
| CWaitForTimeout (page : handle) (timeout : Z)
| CScreenshot (page : handle) (path : option string) (full_page : option bool)
| CClose (browser : handle)
| CStop.

(** A completed call: when it was issued, and the exception it raised, if
    any. *)
Record Event := { ev_time : N; ev_call : Call; ev_raised : option Exn }.

Inductive Step :=
| SStart | SLaunch | SNewContext | SNewPage | SGoto | SWait | SScreenshot | SClose | SStop.

Definition step_of (c : Call) : Step :=
  match c with
  | CStart => SStart
  | CLaunch _ _ => SLaunch
  | CNewContext _ => SNewContext
  | CNewPage _ => SNewPage
  | CGoto _ _ => SGoto
  | CWaitForTimeout _ _ => SWait
  | CScreenshot _ _ _ => SScreenshot
  | CClose _ => SClose
  | CStop => SStop
  end.

#[global] Instance Step_eq_dec : EqDecision Step.
Proof. solve_decision. Defined.

(** ** The world *)

Record FS := { fs_dirs : gset string; fs_files : gmap string Image }.

Record World := {
  w_driver : bool;                    (* the Playwright driver process runs *)
  w_next : handle;                    (* next fresh handle *)
  w_browsers : gset handle;           (* live browser processes *)
  w_contexts : gmap handle handle;    (* live context -> owning browser *)
  w_pages : gmap handle Page;         (* live pages *)
  w_fs : FS;
  w_clock : N;                        (* wall clock, milliseconds *)
  w_log : list Event                  (* the calls made, in order *)
}.

(** What the script does not control: the server behind a URL, faults of
    the driver and of the browser, the exception a failed start of the
    driver ends with, how long things take, the height of the rendered
    document, and which paths the process may write. *)
Inductive Server :=
| Refused
| Responds (status : Z) (load_ms : N).

Record Env := {
  env_server : string -> Server;
  env_crash : Step -> bool;
  env_start_error : Exn;
  env_latency : Step -> N;
  env_overshoot : N;
  env_content_height : string -> Z;
  env_writable : string -> bool
}.

(** ** State and exceptions *)

Inductive Res (A : Type) :=
| Return (a : A)
| Raise (e : Exn).
Arguments Return {A} a.
Arguments Raise {A} e.

Definition M (A : Type) : Type := World -> Res A * World.

#[global] Instance M_ret : MRet M := fun A a w => (Return a, w).

#[global] Instance M_bind : MBind M := fun A B f m w =>
  match m w with
  | (Return a, w1) => f a w1
  | (Raise e, w1) => (Raise e, w1)
  end.

Definition raise {A} (e : Exn) : M A := fun w => (Raise e, w).
Definition gets {A} (f : World -> A) : M A := fun w => (Return (f w), w).
Definition modify (f : World -> World) : M unit := fun w => (Return tt, f w).

Definition set_driver (d : bool) (w : World) : World :=
  {| w_driver := d; w_next := w_next w; w_browsers := w_browsers w;
     w_contexts := w_contexts w; w_pages := w_pages w; w_fs := w_fs w;
     w_clock := w_clock w; w_log := w_log w |}.

Definition set_next (n : handle) (w : World) : World :=
  {| w_driver := w_driver w; w_next := n; w_browsers := w_browsers w;
     w_contexts := w_contexts w; w_pages := w_pages w; w_fs := w_fs w;
     w_clock := w_clock w; w_log := w_log w |}.

Definition set_browsers (bs : gset handle) (w : World) : World :=
  {| w_driver := w_driver w; w_next := w_next w; w_browsers := bs;
     w_contexts := w_contexts w; w_pages := w_pages w; w_fs := w_fs w;
     w_clock := w_clock w; w_log := w_log w |}.

Definition set_contexts (cs : gmap handle handle) (w : World) : World :=
  {| w_driver := w_driver w; w_next := w_next w; w_browsers := w_browsers w;
     w_contexts := cs; w_pages := w_pages w; w_fs := w_fs w;
     w_clock := w_clock w; w_log := w_log w |}.

Definition set_pages (ps : gmap handle Page) (w : World) : World :=
  {| w_driver := w_driver w; w_next := w_next w; w_browsers := w_browsers w;
     w_contexts := w_contexts w; w_pages := ps; w_fs := w_fs w;
     w_clock := w_clock w; w_log := w_log w |}.

Definition set_fs (fs : FS) (w : World) : World :=
  {| w_driver := w_driver w; w_next := w_next w; w_browsers := w_browsers w;
     w_contexts := w_contexts w; w_pages := w_pages w; w_fs := fs;
     w_clock := w_clock w; w_log := w_log w |}.

Definition set_clock (t : N) (w : World) : World :=
  {| w_driver := w_driver w; w_next := w_next w; w_browsers := w_browsers w;
     w_contexts := w_contexts w; w_pages := w_pages w; w_fs := w_fs w;
     w_clock := t; w_log := w_log w |}.

Definition set_log (l : list Event) (w : World) : World :=
  {| w_driver := w_driver w; w_next := w_next w; w_browsers := w_browsers w;
     w_contexts := w_contexts w; w_pages := w_pages w; w_fs := w_fs w;
     w_clock := w_clock w; w_log := l |}.

(** The browser [b] ends, with the contexts it owns and their pages. *)
Definition end_browser (b : handle) (w : World) : World :=
  let cs := filter (fun kv => kv.2 ≠ b) (w_contexts w) in
  set_browsers (w_browsers w ∖ {[b]})
    (set_contexts cs
      (set_pages (filter (fun kv => is_Some (cs !! pg_context kv.2)) (w_pages w)) w)).

(** The context [c] ends, with its pages. *)
Definition end_context (c : handle) (w : World) : World :=
  set_contexts (delete c (w_contexts w))
    (set_pages (filter (fun kv => pg_context kv.2 ≠ c) (w_pages w)) w).

(** The page [p] ends. *)
Definition end_page (p : handle) (w : World) : World :=
  set_pages (delete p (w_pages w)) w.

(** A call of the API: what it does, and its entry in the log, with the
    time the call was issued at and how it ended. *)
Definition api {A} (c : Call) (body : M A) : M A := fun w =>
  let t := w_clock w in
  match body w with
  | (Return a, w1) =>
      (Return a, set_log (w_log w1 ++ [{| ev_time := t; ev_call := c; ev_raised := None |}]) w1)
  | (Raise e, w1) =>
      (Raise e, set_log (w_log w1 ++ [{| ev_time := t; ev_call := c; ev_raised := Some e |}]) w1)
  end.

Definition elapse (ms : N) : M unit :=
  modify (fun w => set_clock (w_clock w + ms)%N w).

Definition fresh : M handle :=
  fun w => (Return (w_next w), set_next (S (w_next w)) w).

(** ** The Playwright calls the script makes *)

Module Api.
Section WithEnv.

Variable env : Env.

(** A fault of a step that has no target yet: the call raises [e]. *)
Definition guard (s : Step) (e : Exn) : M unit :=
  if env_crash env s then raise e else mret tt.

(** A fault of a step on a browser, a context or a page: the target has
    ended, as [ended] says, and the call raises the error of a closed
    target. *)
Definition gone (s : Step) (ended : World -> World) : M unit :=
  if env_crash env s then modify ended;; raise TargetClosedError else mret tt.

Definition need_driver : M unit :=
  d ← gets w_driver;
  if d : bool then mret tt else raise (PlaywrightError "Connection closed").

Definition need_browser (b : handle) : M unit :=
  bs ← gets w_browsers;
  if decide (b ∈ bs) then mret tt else raise TargetClosedError.

Definition need_context (c : handle) : M handle :=
  cs ← gets w_contexts;
  match cs !! c with
  | Some b => mret b
  | None => raise TargetClosedError
  end.

Definition need_page (p : handle) : M Page :=
  ps ← gets w_pages;
  match ps !! p with
  | Some pg => mret pg
  | None => raise TargetClosedError
  end.

(** [sync_playwright().__enter__()]: starts the driver and returns the
    [playwright] object.  When the start fails it leaves no driver behind
    and raises what the failure raised (a [FileNotFoundError] for a
    missing driver, a plain exception for a connection that does not come
    up): the environment says which. *)
Definition start : M Playwright :=
  api CStart (
    elapse (env_latency env SStart);;
    (if env_crash env SStart
     then modify (set_driver false);; raise (env_start_error env)
     else mret tt);;
    modify (set_driver true);;
    mret playwright_object).

(** [sync_playwright().__exit__(...)]: stops the driver, which ends the
    browsers it started with their contexts and pages.  It returns
    [None], so an exception of the block is not suppressed. *)
Definition stop : M bool :=
  api CStop (
    elapse (env_latency env SStop);;
    modify (fun w => set_driver false (set_browsers ∅ (set_contexts ∅ (set_pages ∅ w))));;
    mret false).

(** [browser_type.launch(headless=...)]. *)
Definition launch (bt : BrowserType) (headless : option bool) : M handle :=
  api (CLaunch bt headless) (
    elapse (env_latency env SLaunch);;
    need_driver;;
    guard SLaunch (PlaywrightError "BrowserType.launch: failed to launch the browser process");;
    b ← fresh;
    modify (fun w => set_browsers ({[b]} ∪ w_browsers w) w);;
    mret b).

(** [browser.new_context()]. *)
Definition new_context (b : handle) : M handle :=
  api (CNewContext b) (
    elapse (env_latency env SNewContext);;
    need_browser b;;
    gone SNewContext (end_browser b);;
    c ← fresh;
    modify (fun w => set_contexts (<[c := b]> (w_contexts w)) w);;
    mret c).

(** [context.new_page()]: the page starts on about:blank. *)
Definition new_page (c : handle) : M handle :=
  api (CNewPage c) (
    elapse (env_latency env SNewPage);;
    need_context c;;
    gone SNewPage (end_context c);;
    p ← fresh;
    modify (fun w => set_pages (<[p := {| pg_context := c; pg_doc := Blank |}]> (w_pages w)) w);;
    mret p).

(** Default navigation timeout, milliseconds. *)
Definition navigation_timeout : N := 30000.

(** [page.goto(url)]: waits for the load event.  It raises when the
    server cannot be reached and when the load takes longer than the
    navigation timeout; it returns the main response, whatever its HTTP
    status, otherwise. *)
Definition goto (p : handle) (url : string) : M (option Z) :=
  api (CGoto p url) (
    pg ← need_page p;
    gone SGoto (end_page p);;
    match env_server env url with
    | Refused =>
        elapse (env_latency env SGoto);;
        raise (PlaywrightError "Page.goto: net::ERR_CONNECTION_REFUSED")
    | Responds status load_ms =>
        if (navigation_timeout <? load_ms)%N
        then elapse navigation_timeout;; raise TimeoutError
        else
          elapse load_ms;;
          modify (fun w => set_pages
            (<[p := {| pg_context := pg_context pg; pg_doc := Document url status |}]> (w_pages w)) w);;
          mret (Some status)
    end).

(** [page.wait_for_timeout(timeout)]: returns once [timeout]
    milliseconds have passed, never earlier. *)
Definition wait_for_timeout (p : handle) (timeout : Z) : M unit :=
  api (CWaitForTimeout p timeout) (
    need_page p;;
    gone SWait (end_page p);;
    elapse (Z.to_N timeout + env_overshoot env)).

(** Default viewport of a context: 1280x720. *)
Definition viewport_width : Z := 1280.
Definition viewport_height : Z := 720.

Definition scroll_height (d : Doc) : Z :=
  match d with
  | Blank => viewport_height
  | Document url _ => Z.max viewport_height (env_content_height env url)
  end.

(** [full_page] defaults to false: the capture is the viewport. *)
Definition capture (d : Doc) (full_page : option bool) : Image :=
  {| img_width := viewport_width;
     img_height := if default false full_page then scroll_height d else viewport_height;
     img_doc := d |}.

(** [os.path.dirname]. *)
Fixpoint dirname_aux (s : string) : option string :=
  match s with
  | EmptyString => None
  | String a s' =>
      match dirname_aux s' with
      | Some d => Some (String a d)
      | None => if Ascii.eqb a "/"%char then Some EmptyString else None
      end
  end.

Definition dirname (s : string) : string := default EmptyString (dirname_aux s).

(** [os.makedirs(d, exist_ok=True)], for a directory [d] under the working
    directory. *)
Definition makedirs (d : string) : M unit :=
  fs ← gets w_fs;
  if decide (d ∈ fs_dirs fs) then mret tt
  else if env_writable env d
  then modify (set_fs {| fs_dirs := {[d]} ∪ fs_dirs fs; fs_files := fs_files fs |})
  else raise (OSError "Permission denied").

(** Writing a file creates it or replaces its content. *)
Definition write_file (f : string) (img : Image) : M unit :=
  fs ← gets w_fs;
  if decide (dirname f ∈ fs_dirs fs)
  then if env_writable env f
       then modify (set_fs {| fs_dirs := fs_dirs fs; fs_files := <[f := img]> (fs_files fs) |})
       else raise (OSError "Permission denied")
  else raise (OSError "No such file or directory").

(** [page.screenshot(path=..., full_page=...)]: captures, then, when a
    path is given, makes the directories of the file and writes it. *)
Definition screenshot (p : handle) (path : option string) (full_page : option bool) : M Image :=
  api (CScreenshot p path full_page) (
    elapse (env_latency env SScreenshot);;
    pg ← need_page p;
    gone SScreenshot (end_page p);;
    let img := capture (pg_doc pg) full_page in
    match path with
    | None => mret img
    | Some f =>
        makedirs (dirname f);;
        write_file f img;;
        mret img
    end).

(** [browser.close()]: ends the browser with the contexts it owns and
    their pages. *)
Definition close (b : handle) : M unit :=
  api (CClose b) (
    elapse (env_latency env SClose);;
    need_browser b;;
    gone SClose (end_browser b);;
    modify (end_browser b)).

End WithEnv.
End Api.

(** ** The script *)

Module Script.
Section WithEnv.

Variable env : Env.

(** [def run(playwright):] *)
Definition run (playwright : Playwright) : M unit :=
  browser ← Api.launch env (chromium playwright) (Some true);
  context ← Api.new_context env browser;
  page ← Api.new_page env context;
  Api.goto env page "http://localhost:1420/";;
  Api.wait_for_timeout env page 5000;;
  Api.screenshot env page (Some "verification/verification.png") None;;
  Api.close env browser.

(** [with EXPR as VAR: BODY] for the context manager of
    [sync_playwright()]: the exit method runs when the body returns and
    when it raises; the exception goes on unless the exit method
    returns true. *)
Definition with_sync_playwright (body : Playwright -> M unit) : M unit :=
  fun w =>
    match Api.start env w with
    | (Raise e, w1) => (Raise e, w1)
    | (Return playwright, w1) =>
        match body playwright w1 with
        | (Return _, w2) =>
            match Api.stop env w2 with
            | (Return _, w3) => (Return tt, w3)
            | (Raise e', w3) => (Raise e', w3)
            end
        | (Raise e, w2) =>
            match Api.stop env w2 with
            | (Return suppress, w3) => (if suppress : bool then Return tt else Raise e, w3)
            | (Raise e', w3) => (Raise e', w3)
            end
        end
    end.

(** The module body. *)
Definition script : M unit := with_sync_playwright run.

End WithEnv.

(** How the interpreter ends: status 0, or an uncaught exception, which
    prints a traceback and gives status 1. *)
Inductive Termination :=
| Finished
| Uncaught (e : Exn).

Definition exit_status (t : Termination) : Z :=
  match t with
  | Finished => 0
  | Uncaught _ => 1
  end.

(** A fresh interpreter process: no driver, no browser, an empty log; the
    file system and the clock are what it finds. *)
Definition boot (fs : FS) (t0 : N) : World :=
  {| w_driver := false; w_next := 0; w_browsers := ∅; w_contexts := ∅;
     w_pages := ∅; w_fs := fs; w_clock := t0; w_log := [] |}.

Definition main (env : Env) (fs : FS) (t0 : N) : Termination * World :=
  match script env (boot fs t0) with
  | (Return _, w) => (Finished, w)
  | (Raise e, w) => (Uncaught e, w)
  end.

End Script.

Import Script.

(** ** Observations on a world *)

Definition calls (w : World) : list Call := ev_call <$> w_log w.

Definition steps (w : World) : list Step := step_of <$> calls w.

(** The events a computation added to the log of [w]. *)
Definition new_events (w w' : World) : list Event := drop (length (w_log w)) (w_log w').

(** The calls of a complete [run], for the browser type [bt] and the first
    fresh handle [h]. *)
Definition run_calls (bt : BrowserType) (h : handle) : list Call :=
  [ CLaunch bt (Some true);
    CNewContext h;
    CNewPage (S h);
    CGoto (S (S h)) "http://localhost:1420/";
    CWaitForTimeout (S (S h)) 5000;
    CScreenshot (S (S h)) (Some "verification/verification.png") None;
    CClose h ].

Definition run_order : list Step :=
  [SLaunch; SNewContext; SNewPage; SGoto; SWait; SScreenshot; SClose].

(** Resource lifetimes: a live page belongs to a live context, a live
    context to a live browser. *)
Definition lifetime_ok (w : World) : Prop :=
  (∀ p pg, w_pages w !! p = Some pg → is_Some (w_contexts w !! pg_context pg)) ∧
  (∀ c b, w_contexts w !! c = Some b → b ∈ w_browsers w).

Definition preserves {A} (I : World → Prop) (m : M A) : Prop :=
  ∀ w, I w → I (m w).2.

(** ** Concrete environments and worlds *)

(** The application answers with status 200 after 120 ms; nothing fails;
    the rendered document is 2000 pixels high. *)
Definition env_ok : Env :=
  {| env_server := fun _ => Responds 200%Z 120%N;
     env_crash := fun _ => false;
     env_start_error := PyException "Connection closed while reading from the driver";
     env_latency := fun _ => 10%N;
     env_overshoot := 3%N;
     env_content_height := fun _ => 2000%Z;
     env_writable := fun _ => true |}.

(** Nothing listens on the port. *)
Definition env_refused : Env :=
  {| env_server := fun _ => Refused;
     env_crash := fun _ => false;
     env_start_error := PyException "Connection closed while reading from the driver";
     env_latency := fun _ => 10%N;
     env_overshoot := 3%N;
     env_content_height := fun _ => 2000%Z;
     env_writable := fun _ => true |}.

(** The page takes longer to load than the navigation timeout. *)
Definition env_slow : Env :=
  {| env_server := fun _ => Responds 200%Z 45000%N;
     env_crash := fun _ => false;
     env_start_error := PyException "Connection closed while reading from the driver";
     env_latency := fun _ => 10%N;
     env_overshoot := 3%N;
     env_content_height := fun _ => 2000%Z;
     env_writable := fun _ => true |}.

(** The browser cannot be launched. *)
Definition env_no_browser : Env :=
  {| env_server := fun _ => Responds 200%Z 120%N;
     env_crash := fun s => bool_decide (s = SLaunch);
     env_start_error := PyException "Connection closed while reading from the driver";
     env_latency := fun _ => 10%N;
     env_overshoot := 3%N;
     env_content_height := fun _ => 2000%Z;
     env_writable := fun _ => true |}.

(** Nothing can be written under the working directory. *)
Definition env_read_only : Env :=
  {| env_server := fun _ => Responds 200%Z 120%N;
     env_crash := fun _ => false;
     env_start_error := PyException "Connection closed while reading from the driver";
     env_latency := fun _ => 10%N;
     env_overshoot := 3%N;
     env_content_height := fun _ => 2000%Z;
     env_writable := fun _ => false |}.

(** A working directory without [verification/]. *)
Definition fs_empty : FS := {| fs_dirs := ∅; fs_files := ∅ |}.

(** The world inside the [with] block, before [run] is called. *)
Definition started (fs : FS) (t0 : N) : World := set_driver true (boot fs t0).

(** The reading of the specification under which the navigation outcome
    does not matter: once the navigation is issued, the wait and the
    screenshot follow. *)
Definition proceeds_regardless (env : Env) (fs : FS) (t0 : N) : Prop :=
  let st := steps (main env fs t0).2 in
  SGoto ∈ st → SWait ∈ st ∧ SScreenshot ∈ st.

(** The environment [env] with a server that answers every URL with
    [status] after [load_ms] milliseconds. *)
Definition responding (env : Env) (status : Z) (load_ms : N) : Env :=
  {| env_server := fun _ => Responds status load_ms;
     env_crash := env_crash env;
     env_start_error := env_start_error env;
     env_latency := env_latency env;
     env_overshoot := env_overshoot env;
     env_content_height := env_content_height env;
     env_writable := env_writable env |}.

(** The reading of the specification under which the file holds the whole
    scrollable page. *)
Definition captures_full_page (env : Env) (fs : FS) (t0 : N) : Prop :=
  ∀ img,
    fs_files (w_fs (main env fs t0).2) !! "verification/verification.png" = Some img →
    img_height img = Api.scroll_height env (img_doc img).

(** The reading of the specification under which a missing directory makes
    the run fail without writing. *)
Definition missing_directory_fails (env : Env) (fs : FS) (t0 : N) : Prop :=
  let r := main env fs t0 in
  "verification" ∉ fs_dirs fs →
  SScreenshot ∈ steps r.2 →
  exit_status r.1 ≠ 0%Z ∧ fs_files (w_fs r.2) = fs_files fs.

(** ** Symbolic execution of the script *)

(** The term whose value decides the next step of a computation. *)
Ltac blocked t :=
  lazymatch t with
  | match ?x with _ => _ end => blocked x
  | ?f _ =>
      lazymatch f with
      | match ?x with _ => _ end => blocked x
      | _ => t
      end
  | _ => t
  end.

Ltac exec_unfold :=
  unfold main, script, with_sync_playwright, run,
    Api.start, Api.stop,
    Api.launch, Api.new_context, Api.new_page, Api.goto,
    Api.wait_for_timeout, Api.screenshot, Api.close, Api.makedirs, Api.write_file,
    Api.guard, Api.gone, end_browser, end_context, end_page, Api.need_driver, Api.need_browser, Api.need_context, Api.need_page,
    api, elapse, fresh, modify, gets, raise, mbind, M_bind, mret, M_ret.

Ltac exec_step :=
  first
  [ rewrite lookup_insert_eq
  | rewrite decide_True by (apply elem_of_union_l, elem_of_singleton; reflexivity)
  | match goal with
    | |- context [match ?x with _ => _ end] =>
        let h := blocked x in
        lazymatch h with
        | N.ltb ?a ?b => destruct (N.ltb_spec a b)
        | _ => destruct h eqn:?
        end
    end ]; simpl.

Ltac exec := exec_unfold; simpl; repeat exec_step.

(** Every member of an explicit list, one goal each. *)
Ltac members H :=
  repeat (apply elem_of_cons in H as [H | H]);
  [ .. | apply elem_of_nil in H; destruct H ].

(** ** The calls of [run] *)

Lemma run_trace (env : Env) (pw : Playwright) (w : World) :
  ∃ tr, w_log (run env pw w).2 = w_log w ++ tr ∧
        (ev_call <$> tr) `prefix_of` run_calls (chromium pw) (w_next w) ∧
        ((run env pw w).1 = Return tt → ev_call <$> tr = run_calls (chromium pw) (w_next w)).
Proof.
  exec;
    (eexists; split; [ rewrite <- ?app_assoc; reflexivity | ]);
    simpl; (split; [ by eexists | ]); intros Hret; try discriminate Hret; reflexivity.
Qed.

Lemma new_events_app (w w' : World) (tr : list Event) :
  w_log w' = w_log w ++ tr → new_events w w' = tr.
Proof. intros E. unfold new_events. rewrite E. apply drop_app_length. Qed.

(** ** Resource lifetimes *)

Lemma preserves_bind {A B} (I : World → Prop) (m : M A) (f : A → M B) :
  preserves I m → (∀ a, preserves I (f a)) → preserves I (m ≫= f).
Proof.
  intros Hm Hf w Hw. unfold mbind, M_bind.
  specialize (Hm w Hw). destruct (m w) as [[a | e] w1]; simpl in *.
  - by apply Hf.
  - done.
Qed.

Lemma end_browser_lifetime (b : handle) (w : World) :
  lifetime_ok w → lifetime_ok (end_browser b w).
Proof.
  intros [Hp Hc]. split; simpl.
  - intros p pg [_ Hlive]%map_lookup_filter_Some. exact Hlive.
  - intros c b' [Hcb Hne]%map_lookup_filter_Some. simpl in Hne.
    apply elem_of_difference. split; [ eauto | ].
    rewrite elem_of_singleton. exact Hne.
Qed.

Lemma end_context_lifetime (c : handle) (w : World) :
  lifetime_ok w → lifetime_ok (end_context c w).
Proof.
  intros [Hp Hc]. split; simpl.
  - intros p pg [Hpg Hne]%map_lookup_filter_Some. simpl in Hne.
    rewrite lookup_delete_ne by congruence. eauto.
  - intros c' b [_ Hcb]%lookup_delete_Some. eauto.
Qed.

Lemma end_page_lifetime (p : handle) (w : World) :
  lifetime_ok w → lifetime_ok (end_page p w).
Proof.
  intros [Hp Hc]. split; simpl; [ | done ].
  intros q pg [_ Hpg]%lookup_delete_Some. eauto.
Qed.

Lemma launch_lifetime (env : Env) (bt : BrowserType) (h : option bool) :
  preserves lifetime_ok (Api.launch env bt h).
Proof.
  intros w [Hp Hc]. exec; (split; simpl; [ done | ]).
  all: intros c b Hcb; rewrite ?elem_of_union; eauto.
Qed.

Lemma new_context_lifetime (env : Env) (b : handle) :
  preserves lifetime_ok (Api.new_context env b).
Proof.
  intros w Hw. unfold Api.new_context, api, Api.need_browser, Api.gone,
    elapse, fresh, modify, gets, raise, mbind, M_bind, mret, M_ret; simpl.
  destruct (decide (b ∈ w_browsers w)) as [Hb | Hb]; simpl; [ | done ].
  destruct (env_crash env SNewContext); simpl.
  { by apply (end_browser_lifetime b) in Hw. }
  destruct Hw as [Hp Hc]. split; simpl.
  - intros p pg Hpg. apply lookup_insert_is_Some'. right. eauto.
  - intros c b' [[_ <-] | [_ Hcb]]%lookup_insert_Some; eauto.
Qed.

Lemma new_page_lifetime (env : Env) (c : handle) :
  preserves lifetime_ok (Api.new_page env c).
Proof.
  intros w Hw. unfold Api.new_page, api, Api.need_context, Api.gone,
    elapse, fresh, modify, gets, raise, mbind, M_bind, mret, M_ret; simpl.
  destruct (w_contexts w !! c) as [b | ] eqn:Hcb; simpl; [ | done ].
  destruct (env_crash env SNewPage); simpl.
  { by apply (end_context_lifetime c) in Hw. }
  destruct Hw as [Hp Hc]. split; simpl; [ | done ].
  intros p pg [[_ <-] | [_ Hpg]]%lookup_insert_Some; simpl; eauto.
Qed.

Lemma goto_lifetime (env : Env) (p : handle) (url : string) :
  preserves lifetime_ok (Api.goto env p url).
Proof.
  intros w Hw. unfold Api.goto, api, Api.need_page, Api.gone,
    elapse, fresh, modify, gets, raise, mbind, M_bind, mret, M_ret; simpl.
  destruct (w_pages w !! p) as [pg | ] eqn:Hpg; simpl; [ | done ].
  destruct (env_crash env SGoto); simpl.
  { by apply (end_page_lifetime p) in Hw. }
  destruct (env_server env url) as [ | status ms]; simpl; [ done | ].
  destruct (Api.navigation_timeout <? ms)%N; simpl; [ done | ].
  destruct Hw as [Hp Hc]. split; simpl; [ | done ].
  intros q pg' [[_ <-] | [_ Hq]]%lookup_insert_Some; simpl; eauto.
Qed.

Lemma wait_for_timeout_lifetime (env : Env) (p : handle) (ms : Z) :
  preserves lifetime_ok (Api.wait_for_timeout env p ms).
Proof.
  intros w Hw. unfold Api.wait_for_timeout, api, Api.need_page, Api.gone,
    elapse, fresh, modify, gets, raise, mbind, M_bind, mret, M_ret; simpl.
  destruct (w_pages w !! p); simpl; [ | done ].
  destruct (env_crash env SWait); simpl; [ | done ].
  by apply (end_page_lifetime p) in Hw.
Qed.

Lemma screenshot_lifetime (env : Env) (p : handle) (path : option string) (fp : option bool) :
  preserves lifetime_ok (Api.screenshot env p path fp).
Proof.
  intros w Hw. unfold Api.screenshot, api, Api.need_page, Api.gone, Api.makedirs,
    Api.write_file, elapse, fresh, modify, gets, raise, mbind, M_bind, mret, M_ret; simpl.
  destruct (w_pages w !! p); simpl; [ | done ].
  destruct (env_crash env SScreenshot); simpl.
  { by apply (end_page_lifetime p) in Hw. }
  destruct path as [f | ]; simpl; [ | done ].
  repeat (match goal with |- context [match ?x with _ => _ end] =>
            let h := blocked x in destruct h end; simpl; try done).
Qed.

Lemma close_lifetime (env : Env) (b : handle) :
  preserves lifetime_ok (Api.close env b).
Proof.
  intros w Hw. unfold Api.close, api, Api.need_browser, Api.gone,
    elapse, fresh, modify, gets, raise, mbind, M_bind, mret, M_ret; simpl.
  destruct (decide (b ∈ w_browsers w)) as [Hb | Hb]; simpl; [ | done ].
  destruct (env_crash env SClose); simpl;
    by apply (end_browser_lifetime b) in Hw.
Qed.

Lemma run_lifetime (env : Env) (pw : Playwright) :
  preserves lifetime_ok (run env pw).
Proof.
  unfold run.
  apply preserves_bind; [ apply launch_lifetime | intros browser ].
  apply preserves_bind; [ apply new_context_lifetime | intros context ].
  apply preserves_bind; [ apply new_page_lifetime | intros page ].
  apply preserves_bind; [ apply goto_lifetime | intros _ ].
  apply preserves_bind; [ apply wait_for_timeout_lifetime | intros _ ].
  apply preserves_bind; [ apply screenshot_lifetime | intros _ ].
  apply close_lifetime.
Qed.

Lemma started_lifetime (fs : FS) (t0 : N) : lifetime_ok (started fs t0).
Proof. split; simpl; intros x y H; rewrite lookup_empty in H; discriminate. Qed.

(** ** The fixed constants *)


(** ** The order of the steps *)

Lemma run_closes (env : Env) (pw : Playwright) (w : World) :
  let r := run env pw w in
  r.1 = Return tt →
  (w_next w ∉ w_browsers r.2) ∧
  w_contexts r.2 !! S (w_next w) = None ∧
  w_pages r.2 !! S (S (w_next w)) = None.
Proof.
  cbv zeta. exec; intros Hret; try discriminate Hret.
  all: split; [ intros [_ Hne]%elem_of_difference; apply Hne; by apply elem_of_singleton | ].
  all: assert (Hctx : ∀ (cs : gmap handle handle),
         filter (λ kv : handle * handle, kv.2 ≠ w_next w)
           (<[S (w_next w) := w_next w]> cs) !! S (w_next w) = None)
    by (intros cs; apply map_lookup_filter_None; right; intros b;
        rewrite lookup_insert_eq; intros [= <-] Hne; by apply Hne).
  all: split; [ apply Hctx | ].
  all: apply map_lookup_filter_None; right; intros pg.
  all: rewrite lookup_insert_eq; intros [= <-]; simpl.
  all: rewrite Hctx; by intros [? ?].
Qed.

(** C4. From a world whose resources are well nested, [run] makes its
    calls in the order launch, new_context, new_page, goto,
    wait_for_timeout, screenshot, close: the steps made are a prefix of
    that list (none skipped, none out of order, none twice), the whole list
    when [run] returns; the screenshot comes before the close; the
    resources stay well nested, and after a [run] that returns the
    browser, the context and the page it created are gone together. *)
Theorem run_linear_order (env : Env) (pw : Playwright) (w : World)
    (Hwf : lifetime_ok w) :
  let r := run env pw w in
  let tr := step_of <$> (ev_call <$> new_events w r.2) in
  tr `prefix_of` run_order ∧
  NoDup tr ∧
  (r.1 = Return tt → tr = run_order) ∧
  (∀ i j, tr !! i = Some SScreenshot → tr !! j = Some SClose → i < j) ∧
  lifetime_ok r.2 ∧
  (r.1 = Return tt →
     (w_next w ∉ w_browsers r.2) ∧
     w_contexts r.2 !! S (w_next w) = None ∧
     w_pages r.2 !! S (S (w_next w)) = None).
Proof.
  cbv zeta.
  destruct (run_trace env pw w) as (tr & Hlog & Hpre & Hfull).
  rewrite (new_events_app _ _ _ Hlog).
  assert (Hord : step_of <$> (ev_call <$> tr) `prefix_of` run_order).
  { destruct Hpre as [k Hk].
    exists (step_of <$> k). change run_order with (step_of <$> run_calls (chromium pw) (w_next w)).
    by rewrite Hk, fmap_app. }
  split; [ exact Hord | ].
  split.
  { destruct Hord as [k Hk].
    assert (Hnd : NoDup run_order) by (by apply (bool_decide_unpack _)).
    rewrite Hk in Hnd. by apply NoDup_app in Hnd as [? _]. }
  split; [ intros Hret; by rewrite (Hfull Hret) | ].
  split.
  { intros i j Hi Hj.
    apply (prefix_lookup_Some _ _ _ _ Hi) in Hord as Hi'.
    apply (prefix_lookup_Some _ _ _ _ Hj) in Hord as Hj'.
    unfold run_order in Hi', Hj'.
    repeat (destruct i as [ | i]; simpl in Hi'; try discriminate Hi').
    repeat (destruct j as [ | j]; simpl in Hj'; try discriminate Hj').
    lia. }
  split; [ by apply run_lifetime | apply (run_closes env pw w) ].
Qed.

(** A complete run, from the world the [with] block starts [run] in. *)
Lemma run_linear_order_witness :
  step_of <$> (ev_call <$> new_events (started fs_empty 0)
                 (run env_ok playwright_object (started fs_empty 0)).2)
  = run_order.
Proof.
  apply (run_linear_order env_ok playwright_object (started fs_empty 0)
           (started_lifetime fs_empty 0)).
  vm_compute. reflexivity.
Defined.

(** ** The with statement *)

Lemma with_stops_driver (env : Env) (body : Playwright → M unit) (w : World) :
  w_driver w = false → w_driver (with_sync_playwright env body w).2 = false.
Proof.
  intros Hoff. unfold with_sync_playwright.
  destruct (Api.start env w) as [[pw | e] w1] eqn:Hstart.
  - destruct (body pw w1) as [[[] | e] w2]; reflexivity.
  - revert Hstart. exec_unfold; simpl.
    destruct (env_crash env SStart); simpl; intros [= _ <-]; reflexivity.
Qed.

Lemma with_releases (env : Env) (body : Playwright → M unit) (w : World) :
  env_crash env SStart = false →
  let w' := (with_sync_playwright env body w).2 in
  ev_call <$> last (w_log w') = Some CStop ∧
  w_browsers w' = ∅ ∧ w_contexts w' = ∅ ∧ w_pages w' = ∅.
Proof.
  intros Hstart. cbv zeta. unfold with_sync_playwright.
  unfold Api.start at 1. exec_unfold; simpl. rewrite Hstart; simpl.
  match goal with |- context [body ?pw ?w1] => destruct (body pw w1) as [[[] | e] w2] end;
    simpl; rewrite last_snoc; done.
Qed.

(** C10. Started with no driver running, the script leaves no driver
    running, however it ends: the exit method of the context manager runs
    when [run] returns and when [run] raises (before [browser.close()] or
    at any other call).  When the driver was started, the stop of the
    driver is the last call made, and no browser, context or page is left. *)
Theorem script_stops_driver (env : Env) (w : World) (Hoff : w_driver w = false) :
  let r := script env w in
  w_driver r.2 = false ∧
  (env_crash env SStart = false →
     ev_call <$> last (w_log r.2) = Some CStop ∧
     w_browsers r.2 = ∅ ∧ w_contexts r.2 = ∅ ∧ w_pages r.2 = ∅).
Proof.
  cbv zeta. split.
  - by apply with_stops_driver.
  - intros Hstart. by apply with_releases.
Qed.

(** The navigation raises inside [run], before [browser.close()]: the
    driver is stopped all the same. *)
Lemma script_stops_driver_witness :
  (script env_refused (boot fs_empty 0)).1
    = Raise (PlaywrightError "Page.goto: net::ERR_CONNECTION_REFUSED") ∧
  w_driver (script env_refused (boot fs_empty 0)).2 = false.
Proof.
  split.
  - vm_compute. reflexivity.
  - apply (script_stops_driver env_refused (boot fs_empty 0)). reflexivity.
Defined.

(** ** Failures *)

(** C5. When a call of the script raises, whatever the call and the
    exception, the script ends with that exception uncaught and a non-zero
    exit status; no call is made twice; the failed call is the last one
    made, apart from the stop of the driver; and unless the failed call is
    the close, which comes after the screenshot, no file has been written. *)
Theorem faults_are_fatal (env : Env) (fs : FS) (t0 : N) (ev : Event) (e : Exn)
    (Hin : ev ∈ w_log (main env fs t0).2) (Hraised : ev_raised ev = Some e) :
  let r := main env fs t0 in
  r.1 = Uncaught e ∧
  exit_status r.1 ≠ 0%Z ∧
  NoDup (steps r.2) ∧
  last (filter (λ x, step_of (ev_call x) ≠ SStop) (w_log r.2)) = Some ev ∧
  (step_of (ev_call ev) ≠ SClose → fs_files (w_fs r.2) = fs_files fs).
Proof.
  cbv zeta. revert Hin Hraised. exec; intros Hin Hraised.
  all: members Hin; subst ev; simpl in Hraised; try discriminate Hraised.
  all: injection Hraised as <-.
  all: (split; [ reflexivity | ]).
  all: (split; [ discriminate | ]).
  all: (split; [ by apply (bool_decide_unpack _) | ]).
  all: (split; [ reflexivity | ]).
  all: simpl; done.
Qed.

(** The connection is refused. *)
Lemma faults_are_fatal_witness :
  (main env_refused fs_empty 0).1
    = Uncaught (PlaywrightError "Page.goto: net::ERR_CONNECTION_REFUSED") ∧
  exit_status (main env_refused fs_empty 0).1 ≠ 0%Z.
Proof.
  assert (Hin : {| ev_time := 40; ev_call := CGoto 2 "http://localhost:1420/";
                   ev_raised := Some (PlaywrightError "Page.goto: net::ERR_CONNECTION_REFUSED") |}
                ∈ w_log (main env_refused fs_empty 0).2).
  { apply (list_elem_of_lookup_2 _ 4). vm_compute. reflexivity. }
  destruct (faults_are_fatal env_refused fs_empty 0 _ _ Hin eq_refl) as (H1 & H2 & _).
  exact (conj H1 H2).
Defined.

(** The failure modes the specification names, each on an environment
    that has it. *)
Example launch_failure_is_fatal :
  (main env_no_browser fs_empty 0).1
  = Uncaught (PlaywrightError "BrowserType.launch: failed to launch the browser process").
Proof. vm_compute. reflexivity. Qed.

Example navigation_timeout_is_fatal :
  (main env_slow fs_empty 0).1 = Uncaught TimeoutError.
Proof. vm_compute. reflexivity. Qed.

Example write_failure_is_fatal :
  (main env_read_only fs_empty 0).1 = Uncaught (OSError "Permission denied") ∧
  fs_files (w_fs (main env_read_only fs_empty 0).2) = ∅.
Proof. split; vm_compute; reflexivity. Qed.

(** ** Timing *)

(** C7. On the clock of the model, where [wait_for_timeout] returns no
    earlier than the time asked for and no call takes negative time, the
    screenshot call is issued at least 5000 ms after the navigation call
    was, however fast the page loads. *)
Theorem wait_before_screenshot (env : Env) (fs : FS) (t0 : N) (nav shot : Event)
    (Hnav : nav ∈ w_log (main env fs t0).2)
    (Hshot : shot ∈ w_log (main env fs t0).2)
    (Hgoto : step_of (ev_call nav) = SGoto)
    (Hscreenshot : step_of (ev_call shot) = SScreenshot) :
  (ev_time nav + 5000 ≤ ev_time shot)%N.
Proof.
  revert Hnav Hshot. exec; intros Hnav Hshot.
  all: members Hnav; subst nav; simpl in Hgoto; try discriminate Hgoto.
  all: members Hshot; subst shot; simpl in Hscreenshot; try discriminate Hscreenshot.
  all: simpl; lia.
Qed.

(** The navigation is issued at 40 ms, the screenshot at 5163 ms. *)
Lemma wait_before_screenshot_witness : (40 + 5000 ≤ 5163)%N.
Proof.
  apply (wait_before_screenshot env_ok fs_empty 0
           {| ev_time := 40; ev_call := CGoto 2 "http://localhost:1420/"; ev_raised := None |}
           {| ev_time := 5163;
              ev_call := CScreenshot 2 (Some "verification/verification.png") None;
              ev_raised := None |}).
  - apply (list_elem_of_lookup_2 _ 4). vm_compute. reflexivity.
  - apply (list_elem_of_lookup_2 _ 6). vm_compute. reflexivity.
  - reflexivity.
  - reflexivity.
Defined.

(** ** Navigation *)

(** C3, counterexample. With nothing listening on the port, [page.goto]
    raises and the script ends there: the navigation is issued, the wait
    is not. *)
Lemma refused_navigation_aborts : ¬ proceeds_regardless env_refused fs_empty 0.
Proof.
  intros H.
  assert (Hgoto : SGoto ∈ steps (main env_refused fs_empty 0).2) by compute_done.
  destruct (H Hgoto) as [Hwait _].
  revert Hwait. change (SWait ∉ steps (main env_refused fs_empty 0).2). compute_done.
Qed.

(** C3, as the code has it. The outcome of [page.goto] decides: when it
    returns, the script goes on to the wait, and to the screenshot unless
    the wait itself fails; when it raises, as it does for a target that
    refuses the connection, neither the wait nor the screenshot is made and
    the exception ends the script. *)
Theorem navigation_outcome_decides (env : Env) (fs : FS) (t0 : N) (ev : Event)
    (Hin : ev ∈ w_log (main env fs t0).2)
    (Hcall : step_of (ev_call ev) = SGoto) :
  let r := main env fs t0 in
  (ev_raised ev = None →
     SWait ∈ steps r.2 ∧ (env_crash env SWait = false → SScreenshot ∈ steps r.2)) ∧
  (∀ e, ev_raised ev = Some e →
     (SWait ∉ steps r.2) ∧ (SScreenshot ∉ steps r.2) ∧ r.1 = Uncaught e) ∧
  (env_server env "http://localhost:1420/" = Refused → ev_raised ev ≠ None).
Proof.
  cbv zeta. revert Hin. exec; intros Hin.
  all: members Hin; subst ev; simpl in Hcall; try discriminate Hcall; simpl.
  all: split; [ intros Hret; try discriminate Hret | split; [ intros exn Hexn | congruence ] ].
  all: try discriminate Hexn; try injection Hexn as <-.
  all: repeat split; try (intros ?; congruence); by apply (bool_decide_unpack _).
Qed.

(** The connection is refused: no wait, no screenshot. *)
Lemma navigation_outcome_decides_witness :
  (SWait ∉ steps (main env_refused fs_empty 0).2) ∧
  (SScreenshot ∉ steps (main env_refused fs_empty 0).2) ∧
  (main env_refused fs_empty 0).1
    = Uncaught (PlaywrightError "Page.goto: net::ERR_CONNECTION_REFUSED").
Proof.
  assert (Hin : {| ev_time := 40; ev_call := CGoto 2 "http://localhost:1420/";
                   ev_raised := Some (PlaywrightError "Page.goto: net::ERR_CONNECTION_REFUSED") |}
                ∈ w_log (main env_refused fs_empty 0).2).
  { apply (list_elem_of_lookup_2 _ 4). vm_compute. reflexivity. }
  exact (proj1 (proj2 (navigation_outcome_decides env_refused fs_empty 0 _ Hin eq_refl)) _ eq_refl).
Defined.

(** C9. When the server answers, whatever the HTTP status, the navigation
    call returns and the script makes the wait and the screenshot calls
    (the browser staying alive); the status changes neither the calls the
    script makes nor the way it ends. *)
Theorem http_status_ignored (env : Env) (fs : FS) (t0 : N)
    (status status' : Z) (load_ms : N) (ev : Event)
    (Hfast : (load_ms ≤ Api.navigation_timeout)%N)
    (Hgoto : env_crash env SGoto = false)
    (Hwait : env_crash env SWait = false)
    (Hin : ev ∈ w_log (main (responding env status load_ms) fs t0).2)
    (Hcall : step_of (ev_call ev) = SGoto) :
  let r := main (responding env status load_ms) fs t0 in
  let r' := main (responding env status' load_ms) fs t0 in
  ev_raised ev = None ∧
  SWait ∈ steps r.2 ∧
  SScreenshot ∈ steps r.2 ∧
  r'.1 = r.1 ∧
  calls r'.2 = calls r.2.
Proof.
  cbv zeta. revert Hin. unfold responding. exec; intros Hin.
  all: try congruence; try lia.
  all: members Hin; subst ev; simpl in Hcall; try discriminate Hcall; simpl.
  all: repeat split; by apply (bool_decide_unpack _).
Qed.

(** Status 500 against status 200. *)
Lemma http_status_ignored_witness :
  SScreenshot ∈ steps (main (responding env_ok 500 120) fs_empty 0).2 ∧
  (main (responding env_ok 200 120) fs_empty 0).1
    = (main (responding env_ok 500 120) fs_empty 0).1.
Proof.
  assert (Hfast : (120 ≤ Api.navigation_timeout)%N) by (unfold Api.navigation_timeout; lia).
  assert (Hin : {| ev_time := 40; ev_call := CGoto 2 "http://localhost:1420/";
                   ev_raised := None |}
                ∈ w_log (main (responding env_ok 500 120) fs_empty 0).2).
  { apply (list_elem_of_lookup_2 _ 4). vm_compute. reflexivity. }
  destruct (http_status_ignored env_ok fs_empty 0 500 200 120 _
              Hfast eq_refl eq_refl Hin eq_refl) as (_ & _ & Hshot & Hend & _).
  exact (conj Hshot Hend).
Defined.

(** ** The screenshot *)

(** C2, counterexample. A document 2000 pixels high is written as an
    image of 720 rows. *)
Lemma viewport_not_full_page : ¬ captures_full_page env_ok fs_empty 0.
Proof.
  intros H.
  specialize (H {| img_width := 1280; img_height := 720;
                   img_doc := Document "http://localhost:1420/" 200 |}).
  assert (Hh : (720 = 2000)%Z) by (apply H; vm_compute; reflexivity).
  discriminate Hh.
Qed.

(** C2, as the code has it. The screenshot call passes the path and no
    other option, so [full_page] keeps its default: whenever the call
    returns, the file at verification/verification.png holds a capture of
    the viewport, 1280 by 720, of the document the navigation loaded,
    whatever the height of that document. *)
Theorem screenshot_is_viewport (env : Env) (fs : FS) (t0 : N) (ev : Event)
    (Hin : ev ∈ w_log (main env fs t0).2)
    (Hcall : step_of (ev_call ev) = SScreenshot)
    (Hret : ev_raised ev = None) :
  ∃ page status,
    ev_call ev = CScreenshot page (Some "verification/verification.png") None ∧
    fs_files (w_fs (main env fs t0).2) !! "verification/verification.png"
      = Some {| img_width := 1280; img_height := 720;
                img_doc := Document "http://localhost:1420/" status |}.
Proof.
  revert Hin. exec; intros Hin.
  all: members Hin; subst ev; simpl in Hcall; try discriminate Hcall.
  all: simpl in Hret; try discriminate Hret.
  all: eexists _, _; split; [ reflexivity | ].
  all: rewrite ?lookup_insert_eq; reflexivity.
Qed.

(** The run against the 2000-pixel document. *)
Lemma screenshot_is_viewport_witness :
  ∃ page status,
    CScreenshot 2 (Some "verification/verification.png") None
      = CScreenshot page (Some "verification/verification.png") None ∧
    fs_files (w_fs (main env_ok fs_empty 0).2) !! "verification/verification.png"
      = Some {| img_width := 1280; img_height := 720;
                img_doc := Document "http://localhost:1420/" status |}.
Proof.
  apply (screenshot_is_viewport env_ok fs_empty 0
           {| ev_time := 5163;
              ev_call := CScreenshot 2 (Some "verification/verification.png") None;
              ev_raised := None |}).
  - apply (list_elem_of_lookup_2 _ 6). vm_compute. reflexivity.
  - reflexivity.
  - reflexivity.
Defined.

(** ** The output directory *)

(** C6, counterexample. From a working directory without
    [verification/], the script reaches the screenshot and ends with
    status 0. *)
Lemma missing_directory_is_made : ¬ missing_directory_fails env_ok fs_empty 0.
Proof.
  intros H.
  destruct H as [Hexit _].
  - compute_done.
  - compute_done.
  - apply Hexit. vm_compute. reflexivity.
Qed.

(** C6, as the code has it. The script makes no directory itself: before
    the screenshot call the file system is as it was.  The screenshot call
    makes the directory of the path when it is missing and can be made.
    When the directory is missing and cannot be made, the run that reaches
    the screenshot call ends with a non-zero status, writes no file and
    leaves the directory missing.  Otherwise the missing directory does not
    fail the run: with the page alive, the screenshot call returns exactly
    when the directory exists or can be made and the file can be written,
    and when it returns the directory exists and the file is written.
    Whenever the screenshot call raises, the script ends with a non-zero
    status and no file is written. *)
Theorem screenshot_makes_directory (env : Env) (fs : FS) (t0 : N) :
  let r := main env fs t0 in
  (SScreenshot ∉ steps r.2 → w_fs r.2 = fs) ∧
  (∀ ev, ev ∈ w_log r.2 → step_of (ev_call ev) = SScreenshot →
     (ev_raised ev = None →
        "verification" ∈ fs_dirs (w_fs r.2) ∧
        is_Some (fs_files (w_fs r.2) !! "verification/verification.png")) ∧
     (∀ e, ev_raised ev = Some e →
        r.1 = Uncaught e ∧ exit_status r.1 ≠ 0%Z ∧
        fs_files (w_fs r.2) = fs_files fs) ∧
     (env_crash env SScreenshot = false →
        (ev_raised ev = None ↔
           ("verification" ∈ fs_dirs fs ∨ env_writable env "verification" = true) ∧
           env_writable env "verification/verification.png" = true)) ∧
     ("verification" ∉ fs_dirs fs → env_writable env "verification" = false →
        exit_status r.1 ≠ 0%Z ∧
        fs_files (w_fs r.2) = fs_files fs ∧
        "verification" ∉ fs_dirs (w_fs r.2))).
Proof.
  cbv zeta. split.
  - exec; intros Hno; try reflexivity.
    all: exfalso; apply Hno; by apply (bool_decide_unpack _).
  - intros ev Hin Hcall. revert Hin. exec; intros Hin.
    all: members Hin; subst ev; simpl in Hcall; try discriminate Hcall; simpl.
    all: change (Api.dirname "verification/verification.png") with "verification" in *.
    all: split; [ intros Hret; try discriminate Hret
                | split; [ intros exn Hexn
                         | split; [ intros Hlive | intros Hmiss Hro ] ] ].
    all: try discriminate Hexn; try injection Hexn as <-.
    all: try discriminate Hlive.
    all: try contradiction.
    all: rewrite ?elem_of_union, ?elem_of_singleton.
    all: intuition (eauto; congruence).
Qed.

(** ** Running the script twice *)

(** What a run that finishes leaves behind. *)
Lemma main_finished (env : Env) (fs : FS) (t0 : N) :
  (main env fs t0).1 = Finished →
  ∃ status load_ms,
    env_server env "http://localhost:1420/" = Responds status load_ms ∧
    w_fs (main env fs t0).2
      = {| fs_dirs := {["verification"]} ∪ fs_dirs fs;
           fs_files := <["verification/verification.png" :=
                           Api.capture env (Document "http://localhost:1420/" status) None]>
                         (fs_files fs) |} ∧
    calls (main env fs t0).2 = CStart :: run_calls Chromium 0 ++ [CStop].
Proof.
  exec; intros Hfin; try discriminate Hfin.
  all: eexists _, _; split; [ reflexivity | split; [ | reflexivity ] ].
  all: change (Api.dirname "verification/verification.png") with "verification" in *.
  all: f_equal.
  all: symmetry; apply subseteq_union_1_L, singleton_subseteq_l; assumption.
Qed.

(** Whether a run finishes depends on the file system only through the
    directory of the screenshot. *)
Lemma main_finishes_again (env : Env) (fs fs' : FS) (t0 t1 : N) :
  (main env fs t0).1 = Finished →
  "verification" ∈ fs_dirs fs' →
  (main env fs' t1).1 = Finished.
Proof.
  exec; intros Hfin Hdir; try discriminate Hfin; try reflexivity.
  all: contradiction.
Qed.

(** C8. When a run of the script finishes, it has put the capture of
    what the server answered at verification/verification.png, replacing
    whatever file was there, and a second run in the file system and at the
    time the first one left, against the same environment, finishes too.
    A second run that finishes, against the same or another answer of the
    server, makes the same calls, the screenshot with the same path among
    them, and its capture replaces the one of the first run: after both
    runs the path holds the second capture, the files differ from the
    initial ones at that path only, and no file or directory has appeared. *)
Theorem rerun_overwrites (env : Env) (fs : FS) (t0 : N)
    (Hfin : (main env fs t0).1 = Finished) :
  let shot := fun status : Z =>
    {| img_width := 1280; img_height := 720;
       img_doc := Document "http://localhost:1420/" status |} in
  let r1 := main env fs t0 in
  (∃ status1 ms1,
     env_server env "http://localhost:1420/" = Responds status1 ms1 ∧
     fs_files (w_fs r1.2)
       = <["verification/verification.png" := shot status1]> (fs_files fs)) ∧
  (main env (w_fs r1.2) (w_clock r1.2)).1 = Finished ∧
  (∀ env2 status2 ms2,
     env_server env2 "http://localhost:1420/" = Responds status2 ms2 →
     let r2 := main env2 (w_fs r1.2) (w_clock r1.2) in
     r2.1 = Finished →
     calls r2.2 = calls r1.2 ∧
     calls r1.2 !! 6 = Some (CScreenshot 2 (Some "verification/verification.png") None) ∧
     fs_files (w_fs r2.2)
       = <["verification/verification.png" := shot status2]> (fs_files (w_fs r1.2)) ∧
     fs_files (w_fs r2.2)
       = <["verification/verification.png" := shot status2]> (fs_files fs) ∧
     fs_files (w_fs r2.2) !! "verification/verification.png" = Some (shot status2) ∧
     dom (fs_files (w_fs r2.2)) = dom (fs_files (w_fs r1.2)) ∧
     fs_dirs (w_fs r2.2) = fs_dirs (w_fs r1.2)).
Proof.
  cbv zeta.
  destruct (main_finished env fs t0 Hfin) as (st & ms & Hsrv & Hfs1 & Hcalls1).
  split.
  { exists st, ms. split; [ exact Hsrv | ]. by rewrite Hfs1. }
  split.
  { apply (main_finishes_again env fs _ t0 _ Hfin).
    rewrite Hfs1. simpl. apply elem_of_union_l, elem_of_singleton. reflexivity. }
  intros env2 st2 ms2 Hsrv2 Hfin2.
  destruct (main_finished env2 _ _ Hfin2) as (st' & ms' & Hsrv' & Hfs2 & Hcalls2).
  rewrite Hsrv2 in Hsrv'. injection Hsrv' as <- <-.
  rewrite Hcalls2, Hfs2, Hcalls1, Hfs1. simpl.
  split; [ reflexivity | ]. split; [ reflexivity | ].
  split; [ reflexivity | ]. split; [ apply insert_insert_eq | ].
  split; [ apply lookup_insert_eq | ].
  split.
  - rewrite !dom_insert_L. by rewrite (assoc_L (∪)), (idemp_L (∪)).
  - by rewrite (assoc_L (∪)), (idemp_L (∪)).
Qed.

(** A run against the answer 200, then a run against the answer 500: the
    file ends as the capture of the second. *)
Lemma rerun_overwrites_witness :
  fs_files (w_fs (main (responding env_ok 500 120)
                    (w_fs (main env_ok fs_empty 0).2)
                    (w_clock (main env_ok fs_empty 0).2)).2)
    !! "verification/verification.png"
  = Some {| img_width := 1280; img_height := 720;
            img_doc := Document "http://localhost:1420/" 500 |}.
Proof.
  assert (Hfin : (main env_ok fs_empty 0).1 = Finished) by (vm_compute; reflexivity).
  assert (Hfin2 : (main (responding env_ok 500 120)
                     (w_fs (main env_ok fs_empty 0).2)
                     (w_clock (main env_ok fs_empty 0).2)).1 = Finished)
    by (vm_compute; reflexivity).
  destruct (rerun_overwrites env_ok fs_empty 0 Hfin) as (_ & _ & Hsecond).
  destruct (Hsecond (responding env_ok 500 120) 500%Z 120%N eq_refl Hfin2)
    as (_ & _ & _ & _ & Hfile & _).
  exact Hfile.
Defined.

(** ** Further properties of [run] *)

(** X1. [run] launches a browser once, as its first call: the Chromium
    browser type of the playwright object it was given, headless. *)
Theorem run_launches_headless_chromium (env : Env) (pw : Playwright) (w : World) :
  let tr := ev_call <$> new_events w (run env pw w).2 in
  head tr = Some (CLaunch (chromium pw) (Some true)) ∧
  (∀ bt h, CLaunch bt h ∈ tr → bt = chromium pw ∧ h = Some true) ∧
  length (filter (λ c, step_of c = SLaunch) tr) = 1.
Proof.
  cbv zeta. unfold new_events. exec.
  all: rewrite <- ?app_assoc; rewrite drop_app_length; simpl.
  all: split; [ reflexivity | split; [ | reflexivity ] ].
  all: intros bt h Hin; members Hin; try discriminate Hin; injection Hin as -> ->; done.
Qed.

(** X2. [run] works on one browser and one page: [new_context] and
    [close] are called on the same browser, [goto], [wait_for_timeout] and
    [screenshot] on the same page; and as long as that page is alive after
    [run], it belongs to a context of that browser, which is alive too. *)
Theorem run_one_browser_one_page (env : Env) (pw : Playwright) (w : World) :
  let r := run env pw w in
  let tr := ev_call <$> new_events w r.2 in
  ∃ b p,
    (∀ b', CNewContext b' ∈ tr → b' = b) ∧
    (∀ b', CClose b' ∈ tr → b' = b) ∧
    (∀ p' u, CGoto p' u ∈ tr → p' = p) ∧
    (∀ p' t, CWaitForTimeout p' t ∈ tr → p' = p) ∧
    (∀ p' path fp, CScreenshot p' path fp ∈ tr → p' = p) ∧
    (∀ u pg, CGoto p u ∈ tr → w_pages r.2 !! p = Some pg →
       w_contexts r.2 !! pg_context pg = Some b ∧ b ∈ w_browsers r.2).
Proof.
  cbv zeta. unfold new_events.
  exists (w_next w), (S (S (w_next w))). exec.
  all: rewrite <- ?app_assoc; rewrite drop_app_length; simpl.
  all: split; [ | split; [ | split; [ | split; [ | split ] ] ] ].
  all: try (intros x Hin; members Hin; try discriminate Hin; by injection Hin).
  all: try (intros x y Hin; members Hin; try discriminate Hin; by injection Hin).
  all: try (intros x y z Hin; members Hin; try discriminate Hin; by injection Hin).
  all: intros u pg Hin Hpg; members Hin; try discriminate Hin; clear Hin.
  all: try (apply map_lookup_filter_Some in Hpg as [Hpg [b' Hb']];
            rewrite lookup_insert_eq in Hpg; injection Hpg as <-; simpl in Hb';
            apply map_lookup_filter_Some in Hb' as [Hb' Hne];
            rewrite lookup_insert_eq in Hb'; injection Hb' as <-;
            exfalso; by apply Hne).
  all: rewrite ?lookup_delete_eq, ?lookup_insert_eq in Hpg; try discriminate Hpg.
  all: injection Hpg as <-; simpl.
  all: split; [ apply lookup_insert_eq | apply elem_of_union_l, elem_of_singleton; reflexivity ].
Qed.

(** X3. [run] has no handler and no cleanup of its own: when it raises,
    the exception is the one of the last call it made, every call before
    that one returned, and none of them is [close]; so [browser.close()]
    is not called on a failure, unless it is the call that fails. *)
Theorem run_has_no_cleanup (env : Env) (pw : Playwright) (w : World) (e : Exn)
    (Hraise : (run env pw w).1 = Raise e) :
  ∃ pre ev,
    new_events w (run env pw w).2 = pre ++ [ev] ∧
    ev_raised ev = Some e ∧
    Forall (λ x, ev_raised x = None ∧ step_of (ev_call x) ≠ SClose) pre.
Proof.
  revert Hraise. unfold new_events. exec.
  all: rewrite <- ?app_assoc; rewrite drop_app_length; simpl.
  all: intros Hraise; try discriminate Hraise; injection Hraise as <-.
  all: match goal with
       | |- ∃ pre ev, ?l = pre ++ [ev] ∧ _ => exists (removelast l)
       end; simpl.
  all: eexists; split; [ reflexivity | split; [ reflexivity | ] ].
  all: repeat constructor; discriminate.
Qed.

(** The navigation is refused: four calls, the last one raising. *)
Lemma run_has_no_cleanup_witness :
  ∃ pre ev,
    new_events (started fs_empty 0)
      (run env_refused playwright_object (started fs_empty 0)).2 = pre ++ [ev] ∧
    ev_raised ev = Some (PlaywrightError "Page.goto: net::ERR_CONNECTION_REFUSED") ∧
    Forall (λ x, ev_raised x = None ∧ step_of (ev_call x) ≠ SClose) pre.
Proof.
  apply (run_has_no_cleanup env_refused playwright_object (started fs_empty 0)).
  vm_compute. reflexivity.
Defined.

(** ** Further properties of the script *)

(** X4. When the script ends with status 0, every call returned, the
    nine calls were made in order, the server answered within the
    navigation timeout, and the file at verification/verification.png
    holds the capture of the document it served, in a directory that
    exists. *)
Theorem exit_zero_means_screenshot (env : Env) (fs : FS) (t0 : N)
    (Hfin : (main env fs t0).1 = Finished) :
  let r := main env fs t0 in
  Forall (λ ev, ev_raised ev = None) (w_log r.2) ∧
  steps r.2 = SStart :: run_order ++ [SStop] ∧
  ∃ status load_ms,
    env_server env "http://localhost:1420/" = Responds status load_ms ∧
    (load_ms ≤ Api.navigation_timeout)%N ∧
    fs_files (w_fs r.2) !! "verification/verification.png"
      = Some {| img_width := 1280; img_height := 720;
                img_doc := Document "http://localhost:1420/" status |} ∧
    "verification" ∈ fs_dirs (w_fs r.2).
Proof.
  cbv zeta. revert Hfin. exec; intros Hfin; try discriminate Hfin.
  all: change (Api.dirname "verification/verification.png") with "verification" in *.
  all: split; [ repeat constructor | split; [ reflexivity | ] ].
  all: eexists _, _; split; [ reflexivity | split; [ assumption | ] ].
  all: split; [ rewrite ?lookup_insert_eq; reflexivity | ].
  all: first [ assumption | apply elem_of_union_l, elem_of_singleton; reflexivity ].
Qed.

(** The run against the application that answers. *)
Lemma exit_zero_means_screenshot_witness :
  steps (main env_ok fs_empty 0).2 = SStart :: run_order ++ [SStop].
Proof.
  apply (exit_zero_means_screenshot env_ok fs_empty 0).
  vm_compute. reflexivity.
Defined.

(** X5. When no call is hit by a fault of the browser, the server answers
    within the navigation timeout, the directory of the path exists or can
    be made and the file can be written, the script ends with status 0 and
    the file holds the capture of the answer. *)
Theorem reachable_server_gives_screenshot (env : Env) (fs : FS) (t0 : N)
    (status : Z) (load_ms : N)
    (Hcrash : ∀ s, env_crash env s = false)
    (Hsrv : env_server env "http://localhost:1420/" = Responds status load_ms)
    (Hfast : (load_ms ≤ Api.navigation_timeout)%N)
    (Hdir : "verification" ∈ fs_dirs fs ∨ env_writable env "verification" = true)
    (Hfile : env_writable env "verification/verification.png" = true) :
  let r := main env fs t0 in
  r.1 = Finished ∧
  exit_status r.1 = 0%Z ∧
  fs_files (w_fs r.2) !! "verification/verification.png"
    = Some {| img_width := 1280; img_height := 720;
              img_doc := Document "http://localhost:1420/" status |}.
Proof.
  cbv zeta.
  pose proof (Hcrash SStart) as C0. pose proof (Hcrash SLaunch) as C1.
  pose proof (Hcrash SNewContext) as C2. pose proof (Hcrash SNewPage) as C3.
  pose proof (Hcrash SGoto) as C4. pose proof (Hcrash SWait) as C5.
  pose proof (Hcrash SScreenshot) as C6. pose proof (Hcrash SClose) as C7.
  clear Hcrash.
  change "verification" with (Api.dirname "verification/verification.png") in Hdir.
  revert C0 C1 C2 C3 C4 C5 C6 C7 Hsrv Hfast Hdir Hfile.
  exec; intros C0 C1 C2 C3 C4 C5 C6 C7 Hsrv Hfast Hdir Hfile.
  all: try discriminate; try (injection Hsrv as <- <-; lia).
  all: try (destruct Hdir; [ contradiction | discriminate ]).
  all: injection Hsrv as <- <-.
  all: repeat split; rewrite ?lookup_insert_eq; reflexivity.
Qed.

(** The run against the application that answers. *)
Lemma reachable_server_gives_screenshot_witness :
  (main env_ok fs_empty 0).1 = Finished.
Proof.
  apply (reachable_server_gives_screenshot env_ok fs_empty 0 200 120).
  - reflexivity.
  - reflexivity.
  - unfold Api.navigation_timeout. lia.
  - right. reflexivity.
  - reflexivity.
Defined.

(** X6. Whatever happens, the script touches no file other than
    verification/verification.png, removes no file and no directory, and
    makes no directory other than [verification]. *)
Theorem only_screenshot_path_written (env : Env) (fs : FS) (t0 : N) :
  let r := main env fs t0 in
  (∀ f, f ≠ "verification/verification.png" →
     fs_files (w_fs r.2) !! f = fs_files fs !! f) ∧
  dom (fs_files fs) ⊆ dom (fs_files (w_fs r.2)) ∧
  fs_dirs fs ⊆ fs_dirs (w_fs r.2) ∧
  fs_dirs (w_fs r.2) ⊆ {["verification"]} ∪ fs_dirs fs.
Proof.
  cbv zeta. exec.
  all: change (Api.dirname "verification/verification.png") with "verification" in *.
  all: split; [ intros f Hf; rewrite ?lookup_insert_ne by congruence; reflexivity | ].
  all: split; [ rewrite ?dom_insert_L; try apply union_subseteq_r; reflexivity | ].
  all: split; [ try apply union_subseteq_r; reflexivity | ].
  all: first [ reflexivity | apply union_subseteq_r ].
Qed.

(** X8. When the driver starts, the calls of the script are the start of
    the driver, a non-empty prefix of the calls of [run] on the Chromium
    browser type with handles counted from 0, and the stop of the driver. *)
Theorem script_brackets_run (env : Env) (fs : FS) (t0 : N)
    (Hstart : env_crash env SStart = false) :
  ∃ tr, calls (main env fs t0).2 = CStart :: tr ++ [CStop] ∧
        tr `prefix_of` run_calls Chromium 0 ∧
        head tr = Some (CLaunch Chromium (Some true)).
Proof.
  revert Hstart. exec; intros Hstart; try discriminate Hstart.
  all: unfold calls; simpl.
  all: match goal with
       | |- ∃ tr, CStart :: ?l = CStart :: tr ++ [CStop] ∧ _ =>
           exists (removelast l)
       end; simpl.
  all: split; [ reflexivity | split; [ by eexists | reflexivity ] ].
Qed.

(** The run whose navigation is refused. *)
Lemma script_brackets_run_witness :
  ∃ tr, calls (main env_refused fs_empty 0).2 = CStart :: tr ++ [CStop] ∧
        tr `prefix_of` run_calls Chromium 0 ∧
        head tr = Some (CLaunch Chromium (Some true)).
Proof.
  apply (script_brackets_run env_refused fs_empty 0).
  reflexivity.
Defined.
